(** * Mergington High School activities API (src/app.py)

    A shallow embedding of the request handlers of [src/app.py] and of the
    in-memory activity database they share, followed by the properties of
    the sign-up logic.

    Python values are dynamically typed, and the handlers rely on that: the
    module-level [activities] object is created as a list of records, while
    [signup_for_activity] tests and indexes it by activity name.  The model
    keeps both shapes of the database and gives the operators [in] and
    [[]] the meaning Python gives them on each. *)

From stdpp Require Import gmap strings list fin_maps.
From Stdlib Require Import ZArith.

Local Open Scope string_scope.
Local Open Scope list_scope.
Local Open Scope Z_scope.

(** ** Python values *)

(** The values stored in an activity record: integers ([id],
    [max_participants]), strings ([name], [category], [description],
    [schedule]) and lists of strings ([participants]). *)
Inductive value :=
  | VInt (z : Z)
  | VStr (s : string)
  | VList (l : list string).

#[global] Instance value_eq_dec : EqDecision value.
Proof. solve_decision. Defined.

(** An activity record is a Python dict from field names to values. *)
Abbreviation record := (gmap string value).

(** The database object.  The module creates it as a list of records; the
    handlers (and the test fixtures) use it as a dict keyed by activity
    name.  A record is held by value: no two entries share a record or a
    participant list. *)
Inductive collection :=
  | PyList (l : list record)
  | PyDict (m : gmap string record).

(** The exceptions the handlers can let escape. *)
Inductive exn := KeyError | TypeError | AttributeError.

(** [s in t] on two strings: substring test. *)
Definition str_contains (s t : string) : bool :=
  match String.index 0 s t with
  | Some _ => true
  | None => false
  end.

(** [s == r] for a string [s] and a dict [r]: values of different types
    never compare equal. *)
Definition str_eq_record (s : string) (r : record) : bool := false.

(** [k in c].  On a list: some element equals [k]; on a dict: [k] is a
    key. *)
Definition contains (k : string) (c : collection) : bool :=
  match c with
  | PyList l => existsb (str_eq_record k) l
  | PyDict m => bool_decide (is_Some (m !! k))
  end.

(** [c[k]] for a string [k].  A list refuses a string index. *)
Definition getitem (c : collection) (k : string) : exn + record :=
  match c with
  | PyList _ => inl TypeError
  | PyDict m =>
      match m !! k with
      | Some r => inr r
      | None => inl KeyError
      end
  end.

(** The effect, on the database, of mutating in place the record obtained
    as [c[k]]: the entry under [k] now reads [r]. *)
Definition update_record (c : collection) (k : string) (r : record) : collection :=
  match c with
  | PyList l => PyList l
  | PyDict m => PyDict (<[k := r]> m)
  end.

(** ** The database at start-up *)

Definition activity_row (id : Z) (name category : string) : record :=
  <["id" := VInt id]>
    (<["name" := VStr name]>
       (<["category" := VStr category]>
          (<["participants" := VList []]> ∅))).

Definition activities : collection :=
  PyList
    [ activity_row 1 "Basketball" "sports";
      activity_row 2 "Painting Workshop" "artistic";
      activity_row 3 "Python Bootcamp" "intellectual";
      activity_row 4 "Tennis Tournament" "sports";
      activity_row 5 "Swimming Competition" "sports";
      activity_row 6 "Dance Class" "artistic";
      activity_row 7 "Sculpture Studio" "artistic";
      activity_row 8 "Machine Learning Seminar" "intellectual";
      activity_row 9 "Chess Tournament" "intellectual" ].

(** ** Responses *)

Inductive body :=
  | Message (msg : string)
  | Activities (c : collection).

(** A handler returns a body (sent with status 200), raises
    [HTTPException], or lets another exception escape (the framework
    answers 500). *)
Inductive response :=
  | Return (b : body)
  | HTTPException (status_code : Z) (detail : string)
  | Uncaught (e : exn).

Definition status (r : response) : Z :=
  match r with
  | Return _ => 200
  | HTTPException code _ => code
  | Uncaught _ => 500
  end.

(** ** Handlers *)

(** [GET /activities] *)
Definition get_activities (db : collection) : collection * response :=
  (db, Return (Activities db)).

(** [POST /activities/{activity_name}/signup] *)
Definition signup_for_activity (db : collection) (activity_name email : string)
  : collection * response :=
  if negb (contains activity_name db) then
    (db, HTTPException 404 "Activity not found")
  else
    match getitem db activity_name with
    | inl e => (db, Uncaught e)
    | inr activity =>
        match activity !! "participants" with
        | None => (db, Uncaught KeyError)
        | Some (VInt _) => (db, Uncaught TypeError)
        | Some (VStr s) =>
            if str_contains email s then
              (db, HTTPException 400 "Student is already signed up for this activity")
            else (db, Uncaught AttributeError)
        | Some (VList ps) =>
            if bool_decide (email ∈ ps) then
              (db, HTTPException 400 "Student is already signed up for this activity")
            else
              (update_record db activity_name
                 (<["participants" := VList (ps ++ [email])]> activity),
               Return (Message ("Signed up " +:+ email +:+ " for " +:+ activity_name)))
        end
    end.

(** Modelled from the spec: the handler of [DELETE
    /activities/{activity_name}/signup] is missing from [src/app.py]; only
    its tests are present.  Following the spec, it fails with "activity not
    found" (404) when the name is absent from the collection and with "not
    signed up" (404) when the email is not currently a participant;
    otherwise it removes the email from the participant sequence and
    returns a confirmation message.  The name test and the access to the
    participant sequence are the ones [signup_for_activity] uses.  This is
    the handler the spec and the tests describe, not what the module does
    with such a request: for that see [dispatch] below. *)
Definition unregister_from_activity (db : collection) (activity_name email : string)
  : collection * response :=
  if negb (contains activity_name db) then
    (db, HTTPException 404 "Activity not found")
  else
    match getitem db activity_name with
    | inl e => (db, Uncaught e)
    | inr activity =>
        match activity !! "participants" with
        | Some (VList ps) =>
            if bool_decide (email ∈ ps) then
              (update_record db activity_name
                 (<["participants" := VList (filter (λ p, p ≠ email) ps)]> activity),
               Return (Message ("Unregistered " +:+ email +:+ " from " +:+ activity_name)))
            else
              (db, HTTPException 404 "Student is not signed up for this activity")
        | _ => (db, HTTPException 404 "Student is not signed up for this activity")
        end
    end.

(** ** Request sequences *)

Inductive request :=
  | ListActivities
  | Signup (activity_name email : string)
  | Unregister (activity_name email : string).

Definition handle (db : collection) (req : request) : collection * response :=
  match req with
  | ListActivities => get_activities db
  | Signup activity_name email => signup_for_activity db activity_name email
  | Unregister activity_name email => unregister_from_activity db activity_name email
  end.

(** The database after serving the requests in order. *)
Fixpoint serve (db : collection) (reqs : list request) : collection :=
  match reqs with
  | [] => db
  | req :: reqs => serve (handle db req).1 reqs
  end.

(** The activity a request is addressed to. *)
Definition target (req : request) : option string :=
  match req with
  | ListActivities => None
  | Signup activity_name _ => Some activity_name
  | Unregister activity_name _ => Some activity_name
  end.

(** ** Observations on a database *)

(** The participant sequence of the activity stored under [name]. *)
Definition participants_of (db : collection) (name : string) : option (list string) :=
  match getitem db name with
  | inr activity =>
      match activity !! "participants" with
      | Some (VList ps) => Some ps
      | _ => None
      end
  | inl _ => None
  end.

(** The capacity recorded for the activity stored under [name]. *)
Definition max_participants_of (db : collection) (name : string) : option Z :=
  match getitem db name with
  | inr activity =>
      match activity !! "max_participants" with
      | Some (VInt n) => Some n
      | _ => None
      end
  | inl _ => None
  end.

(** The record [r] is the activity called [name] in the database: on a
    dict, the value stored under the key [name]; on a list, an element
    whose [name] field is [name]. *)
Definition activity_named (db : collection) (name : string) (r : record) : Prop :=
  match db with
  | PyList l => r ∈ l ∧ r !! "name" = Some (VStr name)
  | PyDict m => m !! name = Some r
  end.

(** A record's participant sequence holds no email twice. *)
Definition unique_record (r : record) : Prop :=
  match r !! "participants" with
  | Some (VList ps) => NoDup ps
  | _ => True
  end.

#[global] Instance unique_record_dec (r : record) : Decision (unique_record r).
Proof.
  unfold unique_record.
  destruct (r !! "participants") as [[z|s|ps]|]; apply _.
Defined.

(** Every record of the database has that property. *)
Definition unique_participants (db : collection) : Prop :=
  match db with
  | PyList l => Forall unique_record l
  | PyDict m => map_Forall (λ _, unique_record) m
  end.

#[global] Instance unique_participants_dec (db : collection) :
  Decision (unique_participants db).
Proof. destruct db; apply _. Defined.

(** The names under which the handlers find an activity (see [contains]):
    the keys of a dict, and none for a list. *)
Definition activity_names (db : collection) : gset string :=
  match db with
  | PyList _ => ∅
  | PyDict m => dom m
  end.

(** The database rebuilt by the fixture of [tests/test_app.py]. *)
Definition activity_record (description schedule : string) (max_participants : Z)
    (participants : list string) : record :=
  <["description" := VStr description]>
    (<["schedule" := VStr schedule]>
       (<["max_participants" := VInt max_participants]>
          (<["participants" := VList participants]> ∅))).

Definition initial_activities : collection :=
  PyDict
    (<["Chess Club" :=
         activity_record "Learn strategies and compete in chess tournaments"
           "Fridays, 3:30 PM - 5:00 PM" 12
           ["michael@mergington.edu"; "daniel@mergington.edu"]]>
       (<["Programming Class" :=
            activity_record "Learn programming fundamentals and build software projects"
              "Tuesdays and Thursdays, 3:30 PM - 4:30 PM" 20
              ["emma@mergington.edu"; "sophia@mergington.edu"]]>
          (<["Tennis Team" :=
               activity_record "Competitive tennis training and tournaments"
                 "Mondays and Wednesdays, 4:00 PM - 5:30 PM" 16 []]> ∅))).

(** A dict whose one activity has as many participants as its capacity. *)
Definition full_house : collection :=
  PyDict
    (<["Chess Club" :=
         activity_record "Learn strategies and compete in chess tournaments"
           "Fridays, 3:30 PM - 5:00 PM" 2
           ["michael@mergington.edu"; "daniel@mergington.edu"]]> ∅).

(** ** Responses to a request sequence *)

(** The responses to the requests, served in order. *)
Fixpoint responses (db : collection) (reqs : list request) : list response :=
  match reqs with
  | [] => []
  | req :: reqs => (handle db req).2 :: responses (handle db req).1 reqs
  end.

Definition is_unregister (req : request) : bool :=
  match req with
  | Unregister _ _ => true
  | _ => false
  end.

(** ** The fixture [reset_activities] of [tests/test_app.py] *)

(** [c.clear()], which lists and dicts both have. *)
Definition clear (c : collection) : collection :=
  match c with
  | PyList _ => PyList []
  | PyDict _ => PyDict ∅
  end.

(** [c.update(other)] for a dict [other]: the entries of [other] are
    written over those of [c].  A list has no such method. *)
Definition update (c : collection) (other : gmap string record) : exn + collection :=
  match c with
  | PyList _ => inl AttributeError
  | PyDict m => inr (PyDict (other ∪ m))
  end.

(** The dict literal the fixture builds. *)
Definition initial_records : gmap string record :=
  match initial_activities with
  | PyDict m => m
  | PyList _ => ∅
  end.

(** The set-up half of the fixture, up to its [yield]: the database is
    emptied, then loaded with the literal.  The result is the database
    left behind and the exception raised, if any. *)
Definition reset_activities (db : collection) : collection * option exn :=
  let db := clear db in
  match update db initial_records with
  | inl e => (db, Some e)
  | inr db' => (db', None)
  end.

(** ** Routing *)

(** The methods of the requests considered.  ([HEAD], which the framework
    adds to every [GET] route, is left out.) *)
Inductive method := GET | POST | DELETE.

#[global] Instance method_eq_dec : EqDecision method.
Proof. solve_decision. Defined.

(** The paths the module declares a handler for.  The files served below
    [/static] are not represented. *)
Inductive path :=
  | Root
  | ActivityList
  | ActivitySignup (activity_name : string).

(** What the application sends back: the outcome of a handler, or a
    redirection. *)
Inductive reply :=
  | Handled (r : response)
  | Redirect (url : string).

Definition reply_status (r : reply) : Z :=
  match r with
  | Handled r => status r
  | Redirect _ => 307
  end.

(** [GET /] *)
Definition root : reply := Redirect "/static/index.html".

(** The methods registered for each path: [@app.get("/")],
    [@app.get("/activities")] and
    [@app.post("/activities/{activity_name}/signup")]. *)
Definition registered (p : path) : list method :=
  match p with
  | Root => [GET]
  | ActivityList => [GET]
  | ActivitySignup _ => [POST]
  end.

(** A request for a declared path, carrying the [email] query parameter:
    the handler registered for its method runs; when the path has no
    handler for the method, the framework answers 405 and none runs. *)
Definition dispatch (db : collection) (m : method) (p : path) (email : string)
  : collection * reply :=
  if bool_decide (m ∈ registered p) then
    match p with
    | Root => (db, root)
    | ActivityList =>
        let '(db', r) := get_activities db in (db', Handled r)
    | ActivitySignup activity_name =>
        let '(db', r) := signup_for_activity db activity_name email in
        (db', Handled r)
    end
  else (db, Handled (HTTPException 405 "Method Not Allowed")).

(** ** The emails a request sequence adds to an activity *)

(** The email a request asks to sign up for [B], if it is such a
    request. *)
Definition signup_email (B : string) (req : request) : option string :=
  match req with
  | Signup A E => if decide (A = B) then Some E else None
  | _ => None
  end.

(** Of the emails [es], in order, those that are not in [seen] and have
    not come earlier in [es]. *)
Fixpoint first_new (seen es : list string) : list string :=
  match es with
  | [] => []
  | e :: es =>
      if decide (e ∈ seen) then first_new seen es
      else e :: first_new (seen ++ [e]) es
  end.

(** * Properties *)

(** ** The operators [in] and [[]] *)

Lemma contains_PyList k l : contains k (PyList l) = false.
Proof.
  simpl. induction l as [|r l IH]; simpl; [done|].
  by rewrite IH.
Qed.

Lemma contains_getitem k db :
  contains k db = true ↔ ∃ r, getitem db k = inr r.
Proof.
  destruct db as [l|m].
  - rewrite contains_PyList. split; [done|]. by intros [r ?].
  - simpl. rewrite bool_decide_eq_true. split.
    + intros [r Hr]. exists r. by rewrite Hr.
    + intros [r Hr]. destruct (m !! k) as [r'|] eqn:E; [by eexists|done].
Qed.

Lemma getitem_PyDict db k r :
  getitem db k = inr r → ∃ m, db = PyDict m ∧ m !! k = Some r.
Proof.
  destruct db as [l|m]; simpl; [done|].
  destruct (m !! k) as [r'|] eqn:E; [|done].
  intros [= <-]. by exists m.
Qed.

Lemma getitem_update_eq db k r r0 :
  getitem db k = inr r0 → getitem (update_record db k r) k = inr r.
Proof.
  intros (m & -> & _)%getitem_PyDict. simpl. by rewrite lookup_insert_eq.
Qed.

Lemma getitem_update_ne db k k' r :
  k ≠ k' → getitem (update_record db k r) k' = getitem db k'.
Proof.
  intros Hne. destruct db as [l|m]; simpl; [done|].
  by rewrite lookup_insert_ne.
Qed.

Lemma participants_of_Some db A ps :
  participants_of db A = Some ps ↔
  ∃ activity, getitem db A = inr activity ∧
              activity !! "participants" = Some (VList ps).
Proof.
  unfold participants_of. split.
  - destruct (getitem db A) as [e|activity]; [done|].
    destruct (activity !! "participants") as [[z|s|l]|] eqn:E; try done.
    intros [= ->]. by exists activity.
  - intros (activity & -> & ->). done.
Qed.

Lemma participants_of_update db A activity ps :
  getitem db A = inr activity →
  participants_of (update_record db A (<["participants" := VList ps]> activity)) A
  = Some ps.
Proof.
  intros Hget. unfold participants_of.
  rewrite (getitem_update_eq _ _ _ _ Hget). by rewrite lookup_insert_eq.
Qed.

Lemma elem_of_activity_names (db : collection) (k : string) :
  k ∈ activity_names db ↔ contains k db = true.
Proof.
  destruct db as [l|m].
  - rewrite contains_PyList. simpl. set_solver.
  - simpl. by rewrite elem_of_dom, bool_decide_eq_true.
Qed.

(** The existence check of a handler passes when indexing yields a
    record. *)
Ltac pass_existence_check :=
  match goal with
  | |- context [contains ?A ?db] =>
      assert (contains A db = true) as -> by (apply contains_getitem; eauto);
      simpl
  end.

(** ** Substrings *)

Lemma append_cons (a : Ascii.ascii) (s t : string) :
  String a s +:+ t = String a (s +:+ t).
Proof. reflexivity. Qed.

Lemma append_nil_r (t : string) : t +:+ "" = t.
Proof.
  induction t as [|a t IH]; [done|]. by rewrite append_cons, IH.
Qed.

Lemma append_assoc (s t u : string) : (s +:+ t) +:+ u = s +:+ t +:+ u.
Proof.
  induction s as [|a s IH]; [done|]. by rewrite !append_cons, IH.
Qed.

Lemma substring_prefix (s q : string) :
  String.substring 0 (String.length s) (s +:+ q) = s.
Proof.
  induction s as [|a s IH].
  - by destruct q.
  - rewrite append_cons. simpl. by rewrite IH.
Qed.

Lemma substring_infix (p s q : string) :
  String.substring (String.length p) (String.length s) (p +:+ s +:+ q) = s.
Proof.
  induction p as [|a p IH].
  - apply (substring_prefix s q).
  - rewrite append_cons. simpl. apply IH.
Qed.

(** A string occurs in every string built around it. *)
Lemma str_contains_infix (p s q : string) :
  str_contains s (p +:+ s +:+ q) = true.
Proof.
  unfold str_contains.
  destruct (String.index 0 s (p +:+ s +:+ q)) as [n|] eqn:Hidx; [done|].
  exfalso. destruct (decide (s = "")) as [->|Hne].
  - apply String.index_correct4 in Hidx. lia.
  - apply (String.index_correct3 0 (String.length p) s _ Hidx Hne); [lia|].
    apply substring_infix.
Qed.

Lemma str_contains_suffix (p s : string) : str_contains s (p +:+ s) = true.
Proof.
  pose proof (str_contains_infix p s "") as H.
  by rewrite append_nil_r in H.
Qed.

(** ** Filtering one email out *)

Lemma not_elem_of_filter_ne (E : string) (ps : list string) :
  E ∉ filter (λ p, p ≠ E) ps.
Proof. rewrite list_elem_of_filter. by intros [? _]. Qed.

Lemma filter_ne_fresh (E : string) (ps : list string) :
  E ∉ ps → filter (λ p, p ≠ E) (ps ++ [E]) = ps.
Proof.
  intros HE. rewrite filter_app.
  rewrite filter_cons_False by (intros H; by apply H).
  rewrite filter_nil, app_nil_r.
  induction ps as [|p ps IH]; [done|].
  apply not_elem_of_cons in HE as [Hne HE].
  rewrite filter_cons_True by done. by rewrite IH.
Qed.

(** ** Listing *)

(** [get_activities] answers 200 with the database itself and changes
    nothing, whatever the database holds. *)
Lemma get_activities_returns_database (db : collection) :
  get_activities db = (db, Return (Activities db)) ∧
  status (get_activities db).2 = 200.
Proof. done. Qed.

(** On a dict whose records carry the four fields, the listing is the
    mapping from activity names to those records. *)
Example get_activities_fixture :
  ∃ m, get_activities initial_activities
         = (initial_activities, Return (Activities (PyDict m))) ∧
       dom m = {["Chess Club"; "Programming Class"; "Tennis Team"]} ∧
       map_Forall (λ _ (r : record),
         dom r = {["description"; "schedule"; "max_participants"; "participants"]})
         m.
Proof.
  eexists. split; [reflexivity|]. split.
  - rewrite !dom_insert_L, dom_empty_L. set_solver.
  - do 3 (apply map_Forall_insert_2;
          [unfold activity_record; rewrite !dom_insert_L, dom_empty_L;
           set_solver|]).
    apply map_Forall_empty.
Qed.

(** C2. At start-up the listing does succeed with status 200 and without
    side effect, but what it returns is not a mapping keyed by activity
    name: it is a list of nine records, each with the fields [id], [name],
    [category] and [participants] and none with a [description], [schedule]
    or [max_participants] field. *)
Theorem get_activities_on_seed :
  get_activities activities = (activities, Return (Activities activities)) ∧
  status (get_activities activities).2 = 200 ∧
  (∀ m, activities ≠ PyDict m) ∧
  ∃ l, activities = PyList l ∧
       length l = 9%nat ∧
       Forall (λ r : record,
                 dom r = {["id"; "name"; "category"; "participants"]} ∧
                 r !! "description" = None ∧
                 r !! "schedule" = None ∧
                 r !! "max_participants" = None) l.
Proof.
  split; [reflexivity|]. split; [reflexivity|]. split; [done|].
  eexists. split; [reflexivity|]. split; [reflexivity|].
  repeat apply Forall_cons_2; try apply Forall_nil_2;
    (split; [unfold activity_row; rewrite !dom_insert_L, dom_empty_L; set_solver
            | by vm_compute]).
Qed.

(** ** Sign-up on a database keyed by activity name *)

Section NameKeyed.
Context (db : collection) (A E : string) (ps : list string).
Hypothesis Hps : participants_of db A = Some ps.

(** The one successful path of [signup_for_activity]. *)
Lemma signup_fresh :
  E ∉ ps →
  ∃ db',
    signup_for_activity db A E
      = (db', Return (Message ("Signed up " +:+ E +:+ " for " +:+ A))) ∧
    participants_of db' A = Some (ps ++ [E]) ∧
    max_participants_of db' A = max_participants_of db A.
Proof using Hps.
  destruct (proj1 (participants_of_Some _ _ _) Hps) as (activity & Hget & Hfield).
  intros HE. eexists. split; [|split].
  - unfold signup_for_activity. pass_existence_check.
    rewrite Hget, Hfield. by rewrite bool_decide_eq_false_2.
  - apply participants_of_update, Hget.
  - unfold max_participants_of.
    rewrite (getitem_update_eq _ _ _ _ Hget), Hget.
    by rewrite lookup_insert_ne.
Qed.

Lemma signup_member :
  E ∈ ps →
  signup_for_activity db A E
    = (db, HTTPException 400 "Student is already signed up for this activity").
Proof using Hps.
  destruct (proj1 (participants_of_Some _ _ _) Hps) as (activity & Hget & Hfield).
  intros HE. unfold signup_for_activity. pass_existence_check.
  rewrite Hget, Hfield. by rewrite bool_decide_eq_true_2.
Qed.

Lemma unregister_member :
  E ∈ ps →
  ∃ db',
    unregister_from_activity db A E
      = (db', Return (Message ("Unregistered " +:+ E +:+ " from " +:+ A))) ∧
    participants_of db' A = Some (filter (λ p, p ≠ E) ps).
Proof using Hps.
  destruct (proj1 (participants_of_Some _ _ _) Hps) as (activity & Hget & Hfield).
  intros HE. eexists. split; [|apply participants_of_update, Hget].
  unfold unregister_from_activity. pass_existence_check.
  rewrite Hget, Hfield. by rewrite bool_decide_eq_true_2.
Qed.

Lemma unregister_stranger :
  E ∉ ps →
  unregister_from_activity db A E
    = (db, HTTPException 404 "Student is not signed up for this activity").
Proof using Hps.
  destruct (proj1 (participants_of_Some _ _ _) Hps) as (activity & Hget & Hfield).
  intros HE. unfold unregister_from_activity. pass_existence_check.
  rewrite Hget, Hfield. by rewrite bool_decide_eq_false_2.
Qed.
End NameKeyed.

(** X1. When the handler finds [A] in the database and [E] is not among
    its participants, signing [E] up for [A] answers 200 with a message
    that mentions [E] and [A]; afterwards the participants of [A] are the
    former ones followed by [E]. *)
Lemma signup_appends_participant (db : collection) (A E : string) (ps : list string) :
  participants_of db A = Some ps →
  E ∉ ps →
  ∃ db' msg,
    signup_for_activity db A E = (db', Return (Message msg)) ∧
    status (signup_for_activity db A E).2 = 200 ∧
    msg = "Signed up " +:+ E +:+ " for " +:+ A ∧
    str_contains E msg = true ∧
    str_contains A msg = true ∧
    participants_of db' A = Some (ps ++ [E]) ∧
    E ∈ ps ++ [E] ∧
    last (ps ++ [E]) = Some E.
Proof.
  intros Hps HE.
  destruct (signup_fresh _ _ _ _ Hps HE) as (db' & Hrun & Hps' & _).
  exists db', ("Signed up " +:+ E +:+ " for " +:+ A). rewrite Hrun.
  split; [done|]. split; [done|]. split; [done|]. split; [|split; [|split; [done|split]]].
  - apply (str_contains_infix "Signed up " E (" for " +:+ A)).
  - rewrite <- (append_assoc E), <- (append_assoc "Signed up ").
    apply str_contains_suffix.
  - apply elem_of_app. right. by apply list_elem_of_singleton.
  - apply last_snoc.
Qed.

Example signup_tennis_team :
  ∃ db',
    signup_for_activity initial_activities "Tennis Team" "student@mergington.edu"
      = (db', Return (Message "Signed up student@mergington.edu for Tennis Team")) ∧
    participants_of db' "Tennis Team" = Some ["student@mergington.edu"].
Proof. eexists. split; vm_compute; reflexivity. Qed.

(** The capacity is never consulted: the sign-up goes through also when
    the activity already has as many participants as [max_participants],
    or more. *)
Lemma signup_ignores_capacity (db : collection) (A E : string)
    (ps : list string) (cap : Z) :
  participants_of db A = Some ps →
  max_participants_of db A = Some cap →
  cap ≤ Z.of_nat (length ps) →
  E ∉ ps →
  ∃ db',
    signup_for_activity db A E
      = (db', Return (Message ("Signed up " +:+ E +:+ " for " +:+ A))) ∧
    participants_of db' A = Some (ps ++ [E]) ∧
    max_participants_of db' A = Some cap ∧
    cap < Z.of_nat (length (ps ++ [E])).
Proof.
  intros Hps Hcap Hfull HE.
  destruct (signup_fresh _ _ _ _ Hps HE) as (db' & Hrun & Hps' & Hcap').
  exists db'. split; [done|]. split; [done|]. split; [congruence|].
  rewrite length_app. simpl. lia.
Qed.

Example signup_full_house :
  max_participants_of full_house "Chess Club" = Some 2 ∧
  ∃ db',
    signup_for_activity full_house "Chess Club" "emma@mergington.edu"
      = (db', Return (Message "Signed up emma@mergington.edu for Chess Club")) ∧
    participants_of db' "Chess Club"
      = Some ["michael@mergington.edu"; "daniel@mergington.edu";
              "emma@mergington.edu"].
Proof.
  split; [vm_compute; reflexivity|].
  eexists. split; vm_compute; reflexivity.
Qed.

(** C3. For an activity [A] of the collection and an email [E] already
    among its participants, signing [E] up for [A] fails with status 400
    and a detail that contains "already signed up"; the database, and with
    it the participants of [A], is left as it was. *)
Theorem signup_duplicate_rejected (db : collection) (A E : string) (ps : list string) :
  participants_of db A = Some ps →
  E ∈ ps →
  ∃ detail,
    signup_for_activity db A E = (db, HTTPException 400 detail) ∧
    status (signup_for_activity db A E).2 = 400 ∧
    str_contains "already signed up" detail = true ∧
    participants_of (signup_for_activity db A E).1 A = Some ps.
Proof.
  intros Hps HE.
  exists "Student is already signed up for this activity".
  rewrite (signup_member _ _ _ _ Hps HE).
  split; [done|]. split; [done|]. split; [by vm_compute | done].
Qed.

Lemma signup_duplicate_rejected_witness :
  participants_of initial_activities "Chess Club"
    = Some ["michael@mergington.edu"; "daniel@mergington.edu"] ∧
  "michael@mergington.edu" ∈ ["michael@mergington.edu"; "daniel@mergington.edu"] ∧
  ∃ detail,
    signup_for_activity initial_activities "Chess Club" "michael@mergington.edu"
      = (initial_activities, HTTPException 400 detail) ∧
    status (signup_for_activity initial_activities "Chess Club"
              "michael@mergington.edu").2 = 400 ∧
    str_contains "already signed up" detail = true ∧
    participants_of
      (signup_for_activity initial_activities "Chess Club"
         "michael@mergington.edu").1 "Chess Club"
      = Some ["michael@mergington.edu"; "daniel@mergington.edu"].
Proof.
  split; [vm_compute; reflexivity|].
  split; [apply list_elem_of_here|].
  apply (signup_duplicate_rejected initial_activities "Chess Club"
           "michael@mergington.edu"
           ["michael@mergington.edu"; "daniel@mergington.edu"]).
  - vm_compute; reflexivity.
  - apply list_elem_of_here.
Defined.

(** C4. For a name that is absent from the collection, and for every
    email, signing up fails with status 404 and detail "Activity not
    found", and the database is left as it was. *)
Theorem signup_unknown_activity (db : collection) (A E : string) :
  contains A db = false →
  signup_for_activity db A E = (db, HTTPException 404 "Activity not found") ∧
  status (signup_for_activity db A E).2 = 404.
Proof.
  intros Hnot. unfold signup_for_activity. by rewrite Hnot.
Qed.

Lemma signup_unknown_activity_witness :
  contains "Nonexistent Club" initial_activities = false ∧
  signup_for_activity initial_activities "Nonexistent Club" "student@mergington.edu"
    = (initial_activities, HTTPException 404 "Activity not found") ∧
  status (signup_for_activity initial_activities "Nonexistent Club"
            "student@mergington.edu").2 = 404.
Proof.
  split; [vm_compute; reflexivity|].
  apply (signup_unknown_activity initial_activities "Nonexistent Club"
           "student@mergington.edu").
  vm_compute; reflexivity.
Defined.

(** ** Unregistering *)

(** The handler modelled from the spec, on an activity [A] it finds: when
    [E] is among the participants, unregistering [E] from [A] answers 200
    with a confirmation message and afterwards [E] is not a participant of
    [A]; when [E] is not among them, it fails with status 404 and a detail
    that contains "not signed up", and the participants of [A] are as
    before. *)
Lemma unregister_removes_participant (db : collection) (A E : string)
    (ps : list string) :
  participants_of db A = Some ps →
  (E ∈ ps →
   ∃ db' msg ps',
     unregister_from_activity db A E = (db', Return (Message msg)) ∧
     status (unregister_from_activity db A E).2 = 200 ∧
     str_contains "Unregistered" msg = true ∧
     participants_of db' A = Some ps' ∧
     E ∉ ps') ∧
  (E ∉ ps →
   ∃ detail,
     unregister_from_activity db A E = (db, HTTPException 404 detail) ∧
     status (unregister_from_activity db A E).2 = 404 ∧
     str_contains "not signed up" detail = true ∧
     participants_of (unregister_from_activity db A E).1 A = Some ps).
Proof.
  intros Hps. split; intros HE.
  - destruct (unregister_member _ _ _ _ Hps HE) as (db' & Hrun & Hps').
    exists db', ("Unregistered " +:+ E +:+ " from " +:+ A), (filter (λ p, p ≠ E) ps).
    rewrite Hrun. split; [done|]. split; [done|]. split.
    { apply (str_contains_infix "" "Unregistered" (" " +:+ E +:+ " from " +:+ A)). }
    split; [done | apply not_elem_of_filter_ne].
  - exists "Student is not signed up for this activity".
    rewrite (unregister_stranger _ _ _ _ Hps HE).
    split; [done|]. split; [done|]. split; [by vm_compute | done].
Qed.

Lemma unregister_removes_participant_witness :
  (∃ db' msg ps',
     unregister_from_activity initial_activities "Chess Club" "michael@mergington.edu"
       = (db', Return (Message msg)) ∧
     status (unregister_from_activity initial_activities "Chess Club"
               "michael@mergington.edu").2 = 200 ∧
     str_contains "Unregistered" msg = true ∧
     participants_of db' "Chess Club" = Some ps' ∧
     "michael@mergington.edu" ∉ ps') ∧
  (∃ detail,
     unregister_from_activity initial_activities "Tennis Team"
       "notstudent@mergington.edu"
       = (initial_activities, HTTPException 404 detail) ∧
     status (unregister_from_activity initial_activities "Tennis Team"
               "notstudent@mergington.edu").2 = 404 ∧
     str_contains "not signed up" detail = true ∧
     participants_of
       (unregister_from_activity initial_activities "Tennis Team"
          "notstudent@mergington.edu").1 "Tennis Team" = Some []).
Proof.
  split.
  - apply (unregister_removes_participant initial_activities "Chess Club"
             "michael@mergington.edu"
             ["michael@mergington.edu"; "daniel@mergington.edu"]).
    + vm_compute; reflexivity.
    + apply list_elem_of_here.
  - apply (unregister_removes_participant initial_activities "Tennis Team"
             "notstudent@mergington.edu" []).
    + vm_compute; reflexivity.
    + apply not_elem_of_nil.
Defined.

(** ** Sign up, unregister, sign up again *)

(** When the handler finds [A] in the database and [E] is not among its
    participants, signing [E] up, unregistering it and signing it up again
    answers 200 three times; the unregistration restores the participants
    of [A] and at the end [E] is the last of them. *)
Lemma signup_unregister_signup (db : collection) (A E : string) (ps : list string) :
  participants_of db A = Some ps →
  E ∉ ps →
  let first := signup_for_activity db A E in
  let second := unregister_from_activity first.1 A E in
  let third := signup_for_activity second.1 A E in
  status first.2 = 200 ∧
  status second.2 = 200 ∧
  status third.2 = 200 ∧
  participants_of second.1 A = Some ps ∧
  participants_of third.1 A = Some (ps ++ [E]) ∧
  E ∈ ps ++ [E].
Proof.
  intros Hps HE first second third.
  destruct (signup_fresh _ _ _ _ Hps HE) as (db1 & Hrun1 & Hps1 & _).
  assert (E ∈ ps ++ [E]) as HE1.
  { apply elem_of_app. right. by apply list_elem_of_singleton. }
  destruct (unregister_member db1 A E _ Hps1 HE1) as (db2 & Hrun2 & Hps2).
  rewrite (filter_ne_fresh _ _ HE) in Hps2.
  destruct (signup_fresh _ _ _ _ Hps2 HE) as (db3 & Hrun3 & Hps3 & _).
  subst first second third.
  rewrite Hrun1. simpl. rewrite Hrun2. simpl. rewrite Hrun3. simpl.
  done.
Qed.

Example workflow_tennis_team :
  let first :=
    signup_for_activity initial_activities "Tennis Team" "workflow@mergington.edu" in
  let second :=
    unregister_from_activity first.1 "Tennis Team" "workflow@mergington.edu" in
  let third :=
    signup_for_activity second.1 "Tennis Team" "workflow@mergington.edu" in
  (status first.2, status second.2, status third.2) = (200, 200, 200) ∧
  participants_of third.1 "Tennis Team" = Some ["workflow@mergington.edu"].
Proof. split; vm_compute; reflexivity. Qed.

(** ** The database as the module creates it *)

Lemma signup_PyList (l : list record) (activity_name email : string) :
  signup_for_activity (PyList l) activity_name email
    = (PyList l, HTTPException 404 "Activity not found").
Proof. unfold signup_for_activity. by rewrite contains_PyList. Qed.

Lemma activities_first :
  ∃ l, activities = PyList (activity_row 1 "Basketball" "sports" :: l).
Proof. by eexists. Qed.

(** C10. On the database as created at start-up, a list of records with
    the fields [id], [name], [category] and [participants],
    [signup_for_activity] answers 404 "Activity not found" and leaves the
    database as it was, for every activity name and every email: the name
    is compared with the records themselves and equals none of them.  This
    holds also for "Basketball", the [name] field of the first record. *)
Theorem signup_on_seed_not_found (activity_name email : string) :
  signup_for_activity activities activity_name email
    = (activities, HTTPException 404 "Activity not found") ∧
  signup_for_activity activities "Basketball" email
    = (activities, HTTPException 404 "Activity not found") ∧
  contains activity_name activities = false ∧
  ∃ l first, activities = PyList (first :: l) ∧
    first !! "name" = Some (VStr "Basketball") ∧
    dom first = {["id"; "name"; "category"; "participants"]}.
Proof.
  split; [apply signup_PyList|]. split; [apply signup_PyList|].
  split; [apply contains_PyList|].
  eexists _, _. split; [reflexivity|]. split; [reflexivity|].
  unfold activity_row. rewrite !dom_insert_L, dom_empty_L. set_solver.
Qed.

(** C1. "Basketball" is an activity of the start-up collection and has no
    participant, yet signing a student up for it answers 404 "Activity not
    found" instead of 200, and the student is not added. *)
Theorem signup_basketball_on_seed :
  ∃ r,
    activity_named activities "Basketball" r ∧
    r !! "participants" = Some (VList []) ∧
    ("student@mergington.edu" ∉ @nil string) ∧
    signup_for_activity activities "Basketball" "student@mergington.edu"
      = (activities, HTTPException 404 "Activity not found") ∧
    status (signup_for_activity activities "Basketball"
              "student@mergington.edu").2 = 404.
Proof.
  exists (activity_row 1 "Basketball" "sports").
  split; [split; [apply list_elem_of_here | reflexivity]|].
  split; [reflexivity|]. split; [apply not_elem_of_nil|].
  split; [apply signup_PyList | reflexivity].
Qed.

(** C9. "Tennis Tournament" is an activity of the start-up collection, has
    no participant and records no capacity at all, yet signing a student
    up for it answers 404 "Activity not found" instead of succeeding. *)
Theorem signup_tennis_tournament_on_seed :
  ∃ r,
    activity_named activities "Tennis Tournament" r ∧
    r !! "participants" = Some (VList []) ∧
    r !! "max_participants" = None ∧
    signup_for_activity activities "Tennis Tournament" "student@mergington.edu"
      = (activities, HTTPException 404 "Activity not found") ∧
    status (signup_for_activity activities "Tennis Tournament"
              "student@mergington.edu").2 = 404.
Proof.
  exists (activity_row 4 "Tennis Tournament" "sports").
  split; [split; [|reflexivity]|].
  { unfold activities. do 3 apply list_elem_of_further. apply list_elem_of_here. }
  split; [reflexivity|]. split; [reflexivity|].
  split; [apply signup_PyList | reflexivity].
Qed.

(** C6. "Chess Tournament" is an activity of the start-up collection and
    has no participant, yet the first sign-up of the round trip already
    answers 404, the database stays as it was, and signing up again after
    the unregistration answers 404 as well. *)
Theorem round_trip_on_seed :
  let A := "Chess Tournament" in
  let E := "workflow@mergington.edu" in
  let first := signup_for_activity activities A E in
  let second := unregister_from_activity first.1 A E in
  let third := signup_for_activity second.1 A E in
  (∃ r, activity_named activities A r ∧ r !! "participants" = Some (VList [])) ∧
  first = (activities, HTTPException 404 "Activity not found") ∧
  status first.2 = 404 ∧
  third = (activities, HTTPException 404 "Activity not found") ∧
  status third.2 = 404.
Proof.
  intros A E first second third. split.
  - exists (activity_row 9 "Chess Tournament" "intellectual").
    split; [split; [|reflexivity]|reflexivity].
    unfold activities. do 8 apply list_elem_of_further. apply list_elem_of_here.
  - split; [apply signup_PyList|]. split; [reflexivity|].
    split; reflexivity.
Qed.

(** ** What a request can change *)

(** A request either leaves the database as it was or rewrites the
    participant sequence of the record it is addressed to; the new
    sequence is the old one with a fresh email at the end, or the old one
    filtered. *)
Lemma handle_effect (db : collection) (req : request) :
  (handle db req).1 = db ∨
  ∃ A E activity ps ps',
    target req = Some A ∧
    getitem db A = inr activity ∧
    activity !! "participants" = Some (VList ps) ∧
    (((E ∉ ps) ∧ ps' = ps ++ [E]) ∨ ps' = filter (λ p, p ≠ E) ps) ∧
    (handle db req).1
      = update_record db A (<["participants" := VList ps']> activity).
Proof.
  destruct req as [|A E|A E]; simpl; [by left| |].
  - unfold signup_for_activity.
    destruct (contains A db); simpl; [|by left].
    destruct (getitem db A) as [e|activity] eqn:Hget; [by left|].
    destruct (activity !! "participants") as [[z|s|ps]|] eqn:Hps;
      [by left| | |by left].
    + destruct (str_contains E s); by left.
    + case_bool_decide as HE; [by left|]. right.
      exists A, E, activity, ps, (ps ++ [E]).
      split; [done|]. split; [done|]. split; [done|]. split; [by left|done].
  - unfold unregister_from_activity.
    destruct (contains A db); simpl; [|by left].
    destruct (getitem db A) as [e|activity] eqn:Hget; [by left|].
    destruct (activity !! "participants") as [[z|s|ps]|] eqn:Hps;
      [by left|by left| |by left].
    case_bool_decide as HE; [|by left]. right.
    exists A, E, activity, ps, (filter (λ p, p ≠ E) ps).
    split; [done|]. split; [done|]. split; [done|]. split; [by right|done].
Qed.

Lemma handle_PyList (l : list record) (req : request) :
  (handle (PyList l) req).1 = PyList l.
Proof.
  destruct (handle_effect (PyList l) req)
    as [H|(A & E & activity & ps & ps' & _ & Hget & _)]; done.
Qed.

Lemma handle_names (db : collection) (req : request) :
  activity_names (handle db req).1 = activity_names db.
Proof.
  destruct (handle_effect db req)
    as [->|(A & E & activity & ps & ps' & _ & Hget & _ & _ & ->)]; [done|].
  apply getitem_PyDict in Hget as (m & -> & Hm). simpl.
  rewrite dom_insert_L. apply elem_of_dom_2 in Hm.
  apply subseteq_union_1_L. by apply singleton_subseteq_l.
Qed.

Lemma handle_unique (db : collection) (req : request) :
  unique_participants db → unique_participants (handle db req).1.
Proof.
  intros Hdb.
  destruct (handle_effect db req)
    as [->|(A & E & activity & ps & ps' & _ & Hget & Hps & Hnew & ->)]; [done|].
  apply getitem_PyDict in Hget as (m & -> & Hm). simpl in *.
  apply map_Forall_insert_2; [|done].
  specialize (Hdb A activity Hm). unfold unique_record in *.
  rewrite Hps in Hdb. rewrite lookup_insert_eq.
  destruct Hnew as [[HE ->]| ->].
  - apply NoDup_app. split; [done|]. split; [|apply NoDup_singleton].
    intros x Hx ->%list_elem_of_singleton. done.
  - by apply NoDup_filter.
Qed.

Section Served.
Variable reqs : list request.

Lemma serve_PyList (l : list record) : serve (PyList l) reqs = PyList l.
Proof.
  induction reqs as [|req reqs' IH]; simpl; [done|].
  by rewrite handle_PyList.
Qed.

Lemma serve_names (db : collection) :
  activity_names (serve db reqs) = activity_names db.
Proof.
  revert db. induction reqs as [|req reqs' IH]; intros db; simpl; [done|].
  by rewrite IH, handle_names.
Qed.

Lemma serve_unique (db : collection) :
  unique_participants db → unique_participants (serve db reqs).
Proof.
  revert db. induction reqs as [|req reqs' IH]; intros db Hdb; simpl; [done|].
  by apply IH, handle_unique.
Qed.
End Served.

Lemma activities_unique : unique_participants activities.
Proof. apply (bool_decide_unpack _). vm_compute. exact I. Qed.

(** ** Uniqueness of participants *)

(** C7. In every database reached from the one created at start-up by a
    sequence of requests, no participant sequence holds an email twice;
    and the same is true from any other starting database whose
    participant sequences hold no email twice. *)
Theorem participants_stay_unique (db : collection) (reqs : list request) :
  unique_participants (serve activities reqs) ∧
  (unique_participants db → unique_participants (serve db reqs)).
Proof.
  split.
  - apply serve_unique, activities_unique.
  - apply serve_unique.
Qed.

Lemma participants_stay_unique_witness :
  let reqs :=
    [ Signup "Tennis Team" "student@mergington.edu";
      Signup "Tennis Team" "student@mergington.edu";
      Unregister "Chess Club" "michael@mergington.edu";
      Signup "Chess Club" "michael@mergington.edu";
      Signup "Basketball" "student@mergington.edu" ] in
  unique_participants initial_activities ∧
  unique_participants (serve activities reqs) ∧
  unique_participants (serve initial_activities reqs) ∧
  participants_of (serve initial_activities reqs) "Tennis Team"
    = Some ["student@mergington.edu"] ∧
  participants_of (serve initial_activities reqs) "Chess Club"
    = Some ["daniel@mergington.edu"; "michael@mergington.edu"].
Proof.
  intros reqs.
  assert (unique_participants initial_activities) as Hinit.
  { apply (bool_decide_unpack _). vm_compute. exact I. }
  split; [exact Hinit|]. split; [|split].
  - apply (participants_stay_unique initial_activities reqs).
  - apply (participants_stay_unique initial_activities reqs), Hinit.
  - split; vm_compute; reflexivity.
Defined.

(** ** Frame *)

(** C8. No request creates or deletes an activity: after any sequence of
    requests the activity names are those of the starting database.  A
    sign-up or unregistration addressed to [A], whether it succeeds or
    fails, leaves every other activity as it was and leaves every field of
    [A] but [participants] as it was; a database that is a list, as the one
    created at start-up, is not changed at all. *)
Theorem requests_frame (db : collection) (reqs : list request) (req : request)
    (A : string) :
  target req = Some A →
  activity_names (serve db reqs) = activity_names db ∧
  serve activities reqs = activities ∧
  activity_names (handle db req).1 = activity_names db ∧
  (∀ B, B ≠ A → getitem (handle db req).1 B = getitem db B) ∧
  (∀ activity, getitem db A = inr activity →
     ∃ activity', getitem (handle db req).1 A = inr activity' ∧
       ∀ field, field ≠ "participants" → activity' !! field = activity !! field) ∧
  (∀ l, db = PyList l → (handle db req).1 = db ∧ serve db reqs = db).
Proof.
  intros Htarget.
  split; [apply serve_names|]. split; [apply serve_PyList|].
  split; [apply handle_names|]. split; [|split].
  - intros B HB.
    destruct (handle_effect db req)
      as [->|(A' & E & activity & ps & ps' & HA' & _ & _ & _ & ->)]; [done|].
    rewrite Htarget in HA'. injection HA' as <-.
    by apply getitem_update_ne.
  - intros activity Hget.
    destruct (handle_effect db req)
      as [->|(A' & E & activity' & ps & ps' & HA' & Hget' & _ & _ & ->)].
    { exists activity. by split. }
    rewrite Htarget in HA'. injection HA' as <-.
    rewrite Hget in Hget'. injection Hget' as <-.
    eexists. split; [by apply (getitem_update_eq _ _ _ activity)|].
    intros field Hfield. by rewrite lookup_insert_ne.
  - intros l ->. by rewrite handle_PyList, serve_PyList.
Qed.

Lemma requests_frame_witness :
  let db := initial_activities in
  let reqs :=
    [ Signup "Tennis Team" "student@mergington.edu";
      Unregister "Chess Club" "michael@mergington.edu";
      Signup "Nonexistent Club" "student@mergington.edu" ] in
  let req := Signup "Tennis Team" "student@mergington.edu" in
  let A := "Tennis Team" in
  target req = Some A ∧
  activity_names (serve db reqs) = activity_names db ∧
  serve activities reqs = activities ∧
  activity_names (handle db req).1 = activity_names db ∧
  (∀ B, B ≠ A → getitem (handle db req).1 B = getitem db B) ∧
  (∀ activity, getitem db A = inr activity →
     ∃ activity', getitem (handle db req).1 A = inr activity' ∧
       ∀ field, field ≠ "participants" → activity' !! field = activity !! field) ∧
  (∀ l, db = PyList l → (handle db req).1 = db ∧ serve db reqs = db).
Proof.
  intros db reqs req A. split; [reflexivity|].
  apply (requests_frame db reqs req A). reflexivity.
Defined.


(** * Further properties of the handlers *)

(** ** The sign-up handler, read through [activities[activity_name]] *)

(** The existence check and the indexing agree: the handler answers 404
    exactly when indexing by the name would fail. *)
Lemma signup_by_getitem (db : collection) (A E : string) :
  signup_for_activity db A E =
  match getitem db A with
  | inl _ => (db, HTTPException 404 "Activity not found")
  | inr activity =>
      match activity !! "participants" with
      | None => (db, Uncaught KeyError)
      | Some (VInt _) => (db, Uncaught TypeError)
      | Some (VStr s) =>
          if str_contains E s then
            (db, HTTPException 400 "Student is already signed up for this activity")
          else (db, Uncaught AttributeError)
      | Some (VList ps) =>
          if bool_decide (E ∈ ps) then
            (db, HTTPException 400 "Student is already signed up for this activity")
          else
            (update_record db A (<["participants" := VList (ps ++ [E])]> activity),
             Return (Message ("Signed up " +:+ E +:+ " for " +:+ A)))
      end
  end.
Proof.
  unfold signup_for_activity.
  destruct (contains A db) eqn:Hin; simpl.
  - apply contains_getitem in Hin as [r Hr]. by rewrite Hr.
  - destruct (getitem db A) as [e|r] eqn:Hget; [done|].
    assert (contains A db = true) by (apply contains_getitem; eauto).
    congruence.
Qed.

(** What a sign-up answers, and what it does to the database, depends on
    the database only through the record stored under the name. *)
Lemma signup_local (db db' : collection) (A E : string) :
  getitem db A = getitem db' A →
  (signup_for_activity db' A E).2 = (signup_for_activity db A E).2 ∧
  (((signup_for_activity db A E).1 = db ∧ (signup_for_activity db' A E).1 = db') ∨
   ∃ r', (signup_for_activity db A E).1 = update_record db A r' ∧
         (signup_for_activity db' A E).1 = update_record db' A r').
Proof.
  intros Hsame. rewrite !signup_by_getitem, <- Hsame.
  destruct (getitem db A) as [e|activity]; [by split; [|left]|].
  destruct (activity !! "participants") as [[z|s|ps]|];
    [by split; [|left]| | |by split; [|left]].
  - destruct (str_contains E s); by split; [|left].
  - case_bool_decide; [by split; [|left]|].
    split; [done|]. right. by eexists.
Qed.

Lemma signup_elsewhere (db : collection) (A B E : string) :
  A ≠ B → getitem (signup_for_activity db A E).1 B = getitem db B.
Proof.
  intros Hne.
  destruct (handle_effect db (Signup A E))
    as [Hsame|(A' & E' & activity & ps & ps' & [= <-] & _ & _ & _ & Hnew)];
    simpl in *.
  - by rewrite Hsame.
  - rewrite Hnew. by apply getitem_update_ne.
Qed.

Lemma update_record_commute (db : collection) (A B : string) (r1 r2 : record) :
  A ≠ B →
  update_record (update_record db A r1) B r2
  = update_record (update_record db B r2) A r1.
Proof.
  intros Hne. destruct db as [l|m]; simpl; [done|].
  f_equal. by apply insert_insert_ne.
Qed.

(** ** Outcomes of one sign-up *)

Lemma signup_appends_participant_witness :
  participants_of initial_activities "Tennis Team" = Some [] ∧
  ("" ∉ @nil string) ∧
  ∃ db' msg,
    signup_for_activity initial_activities "Tennis Team" "" = (db', Return (Message msg)) ∧
    status (signup_for_activity initial_activities "Tennis Team" "").2 = 200 ∧
    msg = "Signed up  for Tennis Team" ∧
    str_contains "" msg = true ∧
    str_contains "Tennis Team" msg = true ∧
    participants_of db' "Tennis Team" = Some [""] ∧
    "" ∈ [""] ∧
    last [""] = Some "".
Proof.
  split; [vm_compute; reflexivity|].
  split; [apply not_elem_of_nil|].
  apply (signup_appends_participant initial_activities "Tennis Team" "" []).
  - vm_compute; reflexivity.
  - apply not_elem_of_nil.
Defined.

(** X5. The status of a sign-up tells what the handler found: it is 404
    exactly when the name is not in the database, 200 exactly when the
    name leads to a participant list that lacks the email, and 400 only
    when the email is already in the record's participants; no other
    status than 200, 400, 404 and 500 occurs. *)
Theorem signup_status_cases (db : collection) (A E : string) :
  let answer := (signup_for_activity db A E).2 in
  (status answer = 404 ↔ contains A db = false) ∧
  (status answer = 200 ↔ ∃ ps, participants_of db A = Some ps ∧ E ∉ ps) ∧
  (status answer = 400 →
   ∃ activity, getitem db A = inr activity ∧
     ((∃ ps, activity !! "participants" = Some (VList ps) ∧ E ∈ ps) ∨
      (∃ s, activity !! "participants" = Some (VStr s) ∧ str_contains E s = true))) ∧
  (status answer = 200 ∨ status answer = 400 ∨
   status answer = 404 ∨ status answer = 500).
Proof.
  intros answer. subst answer. rewrite signup_by_getitem.
  assert (contains A db = false ↔ ∀ r, getitem db A ≠ inr r) as Hnot.
  { rewrite <- not_true_iff_false, contains_getitem.
    split; [intros H r Hr; apply H; eauto | intros H [r Hr]; by apply (H r)]. }
  unfold participants_of.
  destruct (getitem db A) as [e|activity] eqn:Hget.
  { simpl. split; [split; [intros _; apply Hnot; congruence|done]|].
    split; [split; [done|by intros (ps & ? & _)]|]. split; [done|]. auto. }
  assert (contains A db ≠ false) as Hin.
  { rewrite Hnot. intros H. by apply (H activity). }
  destruct (activity !! "participants") as [[z|s|ps]|] eqn:Hps; simpl.
  - split; [split; [done|by intros ?]|]. split; [split; [done|by intros (? & ? & _)]|].
    split; [done|]. auto.
  - destruct (str_contains E s) eqn:Hsub; simpl.
    + split; [split; [done|by intros ?]|].
      split; [split; [done|by intros (? & ? & _)]|].
      split; [|auto]. intros _. exists activity. split; [done|]. right. eauto.
    + split; [split; [done|by intros ?]|].
      split; [split; [done|by intros (? & ? & _)]|]. split; [done|]. auto.
  - case_bool_decide as HE; simpl.
    + split; [split; [done|by intros ?]|].
      split; [split; [done|intros (ps' & [= <-] & HE'); done]|].
      split; [|auto]. intros _. exists activity. split; [done|]. left. eauto.
    + split; [split; [done|by intros ?]|].
      split; [split; [intros _; eauto|done]|]. split; [done|]. auto.
  - split; [split; [done|by intros ?]|]. split; [split; [done|by intros (? & ? & _)]|].
    split; [done|]. auto.
Qed.

(** X6. A sign-up that does not answer 200 leaves the database exactly as
    it was. *)
Theorem signup_failure_changes_nothing (db : collection) (A E : string) :
  status (signup_for_activity db A E).2 ≠ 200 →
  (signup_for_activity db A E).1 = db.
Proof.
  rewrite signup_by_getitem.
  destruct (getitem db A) as [e|activity]; [done|].
  destruct (activity !! "participants") as [[z|s|ps]|]; [done| |  |done].
  - by destruct (str_contains E s).
  - by case_bool_decide.
Qed.

Lemma signup_failure_changes_nothing_witness :
  status (signup_for_activity initial_activities "Chess Club"
            "michael@mergington.edu").2 ≠ 200 ∧
  (signup_for_activity initial_activities "Chess Club" "michael@mergington.edu").1
    = initial_activities.
Proof.
  assert (status (signup_for_activity initial_activities "Chess Club"
                    "michael@mergington.edu").2 ≠ 200) as Hfail.
  { vm_compute. discriminate. }
  split; [exact Hfail|].
  apply (signup_failure_changes_nothing initial_activities "Chess Club"
           "michael@mergington.edu" Hfail).
Defined.

(** X2. Whatever a first sign-up of [E] for [A] answered, repeating it
    answers 400 and changes nothing more, as long as [A] leads to a
    participant list. *)
Theorem signup_twice_rejected (db : collection) (A E : string) (ps : list string) :
  participants_of db A = Some ps →
  let once := (signup_for_activity db A E).1 in
  signup_for_activity once A E
    = (once, HTTPException 400 "Student is already signed up for this activity").
Proof.
  intros Hps once. subst once.
  destruct (decide (E ∈ ps)) as [HE|HE].
  - rewrite (signup_member _ _ _ _ Hps HE). simpl.
    apply (signup_member _ _ _ _ Hps HE).
  - destruct (signup_fresh _ _ _ _ Hps HE) as (db' & -> & Hps' & _). simpl.
    apply (signup_member _ _ _ _ Hps').
    apply elem_of_app. right. by apply list_elem_of_singleton.
Qed.

Lemma signup_twice_rejected_witness :
  participants_of initial_activities "Tennis Team" = Some [] ∧
  let once :=
    (signup_for_activity initial_activities "Tennis Team" "student@mergington.edu").1 in
  signup_for_activity once "Tennis Team" "student@mergington.edu"
    = (once, HTTPException 400 "Student is already signed up for this activity").
Proof.
  split; [vm_compute; reflexivity|].
  apply (signup_twice_rejected initial_activities "Tennis Team"
           "student@mergington.edu" []).
  vm_compute; reflexivity.
Defined.

(** ** Sequences of sign-ups *)

Lemma signup_participants (db : collection) (A B E : string) (ps : list string) :
  participants_of db B = Some ps →
  participants_of (signup_for_activity db A E).1 B = Some ps ∨
  (A = B ∧ (E ∉ ps) ∧
   participants_of (signup_for_activity db A E).1 B = Some (ps ++ [E])).
Proof.
  intros Hps. destruct (decide (A = B)) as [<-|Hne].
  - destruct (decide (E ∈ ps)) as [HE|HE].
    + left. by rewrite (signup_member _ _ _ _ Hps HE).
    + right. destruct (signup_fresh _ _ _ _ Hps HE) as (db' & -> & Hps' & _).
      by repeat split.
  - left. unfold participants_of in *. by rewrite signup_elsewhere.
Qed.

(** X3. Signing up, one after the other, emails that are distinct and new
    to [A] answers 200 each time and leaves them after the former
    participants of [A], in the order of the requests. *)
Theorem signups_in_order (db : collection) (A : string) (ps es : list string) :
  participants_of db A = Some ps →
  NoDup es →
  (∀ e, e ∈ es → e ∉ ps) →
  participants_of (serve db (Signup A <$> es)) A = Some (ps ++ es) ∧
  Forall (λ r, status r = 200) (responses db (Signup A <$> es)).
Proof.
  revert db ps. induction es as [|e es IH]; intros db ps Hps Hnodup Hnew; simpl.
  - by rewrite app_nil_r.
  - apply NoDup_cons in Hnodup as [He Hnodup].
    assert (e ∉ ps) as Hfresh by (apply Hnew; left).
    destruct (signup_fresh _ _ _ _ Hps Hfresh) as (db' & -> & Hps' & _). simpl.
    destruct (IH db' (ps ++ [e]) Hps' Hnodup) as [Hall Hok].
    { intros e' He' [Hin| ->%list_elem_of_singleton]%elem_of_app; [|done].
      apply (Hnew e'); [by right|done]. }
    rewrite <- app_assoc in Hall. split; [done|]. by apply Forall_cons_2.
Qed.

Lemma signups_in_order_witness :
  let es := ["student1@mergington.edu"; "student2@mergington.edu";
             "student3@mergington.edu"] in
  participants_of initial_activities "Chess Club"
    = Some ["michael@mergington.edu"; "daniel@mergington.edu"] ∧
  participants_of (serve initial_activities (Signup "Chess Club" <$> es)) "Chess Club"
    = Some (["michael@mergington.edu"; "daniel@mergington.edu"] ++ es) ∧
  Forall (λ r, status r = 200)
    (responses initial_activities (Signup "Chess Club" <$> es)).
Proof.
  intros es. split; [vm_compute; reflexivity|].
  apply (signups_in_order initial_activities "Chess Club"
           ["michael@mergington.edu"; "daniel@mergington.edu"] es).
  - vm_compute; reflexivity.
  - apply (bool_decide_unpack _). vm_compute. exact I.
  - apply (proj1 (Forall_forall _ _)).
    apply (bool_decide_unpack _). vm_compute. exact I.
Defined.

Lemma elem_of_first_new (seen es : list string) (e : string) :
  e ∈ first_new seen es ↔ e ∈ es ∧ e ∉ seen.
Proof.
  revert seen. induction es as [|x es IH]; intros seen; simpl.
  - split; [by intros ?%elem_of_nil | by intros [?%elem_of_nil _]].
  - destruct (decide (x ∈ seen)) as [Hx|Hx].
    + rewrite IH, elem_of_cons. split; [intros [? ?]; auto|].
      intros [[->|?] ?]; [done|auto].
    + rewrite !elem_of_cons, IH, elem_of_app, list_elem_of_singleton.
      split.
      * intros [->|[? Hnot]]; [auto|]. split; [auto|]. intros ?. apply Hnot. auto.
      * intros [[->|?] Hnot]; [auto|].
        destruct (decide (e = x)) as [->|Hne]; [auto|].
        right. split; [done|]. by intros [?|?].
Qed.

Lemma NoDup_first_new (seen es : list string) : NoDup (first_new seen es).
Proof.
  revert seen. induction es as [|x es IH]; intros seen; simpl.
  - apply NoDup_nil_2.
  - destruct (decide (x ∈ seen)); [apply IH|].
    apply NoDup_cons. split; [|apply IH].
    rewrite elem_of_first_new, elem_of_app, list_elem_of_singleton.
    intros [_ Hnot]. apply Hnot. by right.
Qed.

(** X8. As long as no request unregisters anybody, participants are never
    removed or reordered, and what is added is known: after any sequence
    of sign-ups and listings, the participant list of [B] is the one it
    was, followed by the emails the requests asked to sign up for [B], in
    the order of the requests, each at its first occurrence and only if
    it was not a participant already. *)
Theorem signups_only_extend (db : collection) (reqs : list request) (B : string)
    (ps : list string) :
  Forall (λ req, is_unregister req = false) reqs →
  participants_of db B = Some ps →
  let added := first_new ps (omap (signup_email B) reqs) in
  participants_of (serve db reqs) B = Some (ps ++ added) ∧
  NoDup added ∧
  (∀ e, e ∈ added ↔ Signup B e ∈ reqs ∧ e ∉ ps).
Proof.
  intros Hreqs Hps added. subst added. split; [|split].
  - revert db ps Hps.
    induction Hreqs as [|req reqs Hreq _ IH]; intros db ps Hps; simpl.
    { by rewrite app_nil_r. }
    destruct req as [|A E|A E]; simpl in *; [by apply IH| |done].
    destruct (decide (A = B)) as [->|Hne]; simpl.
    + destruct (decide (E ∈ ps)) as [HE|HE].
      * rewrite (signup_member _ _ _ _ Hps HE). simpl. by apply IH.
      * destruct (signup_fresh _ _ _ _ Hps HE) as (db' & -> & Hps' & _). simpl.
        rewrite (IH _ _ Hps'). by rewrite <- app_assoc.
    + apply IH. unfold participants_of in *. by rewrite signup_elsewhere.
  - apply NoDup_first_new.
  - intros e. rewrite elem_of_first_new.
    assert (e ∈ omap (signup_email B) reqs ↔ Signup B e ∈ reqs) as ->; [|done].
    rewrite list_elem_of_omap. split.
    + intros (req & Hin & Hreq). destruct req as [|A E|A E]; simpl in Hreq; [done| |done].
      destruct (decide (A = B)) as [->|]; [|done]. by injection Hreq as ->.
    + intros Hin. exists (Signup B e). split; [done|]. simpl.
      by rewrite decide_True.
Qed.

Lemma signups_only_extend_witness :
  let reqs := [ Signup "Chess Club" "emma@mergington.edu"; ListActivities;
                Signup "Chess Club" "michael@mergington.edu";
                Signup "Tennis Team" "noah@mergington.edu";
                Signup "Chess Club" "sophia@mergington.edu";
                Signup "Chess Club" "emma@mergington.edu" ] in
  let ps := ["michael@mergington.edu"; "daniel@mergington.edu"] in
  let added := first_new ps (omap (signup_email "Chess Club") reqs) in
  added = ["emma@mergington.edu"; "sophia@mergington.edu"] ∧
  participants_of (serve initial_activities reqs) "Chess Club" = Some (ps ++ added) ∧
  NoDup added ∧
  (∀ e, e ∈ added ↔ Signup "Chess Club" e ∈ reqs ∧ e ∉ ps).
Proof.
  intros reqs ps added. split; [vm_compute; reflexivity|].
  apply (signups_only_extend initial_activities reqs "Chess Club" ps).
  - repeat apply Forall_cons_2; try apply Forall_nil_2; reflexivity.
  - vm_compute; reflexivity.
Defined.

(** ** Independence *)

(** X4. Sign-ups for two different activities do not interfere: each
    gets the answer it would have got alone, and the database they leave
    is the same in either order. *)
Theorem signup_commute (db : collection) (A B E F : string) :
  A ≠ B →
  let ab := signup_for_activity (signup_for_activity db A E).1 B F in
  let ba := signup_for_activity (signup_for_activity db B F).1 A E in
  ab.1 = ba.1 ∧
  ab.2 = (signup_for_activity db B F).2 ∧
  ba.2 = (signup_for_activity db A E).2.
Proof.
  intros Hne ab ba. subst ab ba.
  assert (getitem db B = getitem (signup_for_activity db A E).1 B) as HB
    by (symmetry; by apply signup_elsewhere).
  assert (getitem db A = getitem (signup_for_activity db B F).1 A) as HA
    by (symmetry; by apply signup_elsewhere).
  destruct (signup_local _ _ B F HB) as [HrB HdbB].
  destruct (signup_local _ _ A E HA) as [HrA HdbA].
  split; [|by split].
  destruct HdbA as [[HA0 HA1]|(r1 & HA0 & HA1)],
           HdbB as [[HB0 HB1]|(r2 & HB0 & HB1)].
  - rewrite HB1, HA1. congruence.
  - rewrite HB1, HA1. congruence.
  - rewrite HB1, HA1. congruence.
  - rewrite HB1, HA1, HA0, HB0. by apply update_record_commute.
Qed.

Lemma signup_commute_witness :
  let student := "student@mergington.edu" in
  let ab :=
    signup_for_activity
      (signup_for_activity initial_activities "Tennis Team" student).1
      "Programming Class" student in
  let ba :=
    signup_for_activity
      (signup_for_activity initial_activities "Programming Class" student).1
      "Tennis Team" student in
  ab.1 = ba.1 ∧
  ab.2 = (signup_for_activity initial_activities "Programming Class" student).2 ∧
  ba.2 = (signup_for_activity initial_activities "Tennis Team" student).2.
Proof.
  intros student.
  apply (signup_commute initial_activities "Tennis Team" "Programming Class"
           student student).
  discriminate.
Defined.

(** X7. A sign-up reads nothing of a record but its participants:
    overwriting any other field of any record, [max_participants]
    included, changes neither the answer nor the participants the
    sign-up leaves. *)
Theorem signup_reads_only_participants (db : collection) (A B E field : string)
    (v : value) (r : record) :
  getitem db B = inr r →
  field ≠ "participants" →
  let db' := update_record db B (<[field := v]> r) in
  (signup_for_activity db' A E).2 = (signup_for_activity db A E).2 ∧
  participants_of (signup_for_activity db' A E).1 A
    = participants_of (signup_for_activity db A E).1 A.
Proof.
  intros Hget Hfield db'. subst db'.
  apply getitem_PyDict in Hget as (m & -> & Hm).
  destruct (decide (A = B)) as [->|Hne].
  - rewrite !signup_by_getitem. simpl.
    rewrite lookup_insert_eq, Hm, lookup_insert_ne by done.
    unfold participants_of.
    destruct (r !! "participants") as [[z|s|ps]|] eqn:Hps; simpl;
      rewrite ?lookup_insert_eq, ?Hm, ?lookup_insert_ne, ?Hps by done; try done.
    + destruct (str_contains E s); simpl;
        by rewrite ?lookup_insert_eq, ?Hm, ?lookup_insert_ne, ?Hps by done.
    + case_bool_decide; simpl;
        by rewrite ?lookup_insert_eq, ?Hm, ?lookup_insert_ne, ?Hps by done.
  - assert (getitem (PyDict m) A = getitem (update_record (PyDict m) B (<[field:=v]> r)) A)
      as Hsame by (symmetry; by apply getitem_update_ne).
    destruct (signup_local _ _ A E Hsame) as [Hr [[-> ->]|(r' & -> & ->)]].
    + split; [done|]. unfold participants_of. by rewrite <- Hsame.
    + split; [done|]. unfold participants_of. simpl.
      by rewrite !lookup_insert_eq.
Qed.

Lemma signup_reads_only_participants_witness :
  let db' :=
    update_record full_house "Chess Club"
      (<["max_participants" := VInt 0]>
         (activity_record "Learn strategies and compete in chess tournaments"
            "Fridays, 3:30 PM - 5:00 PM" 2
            ["michael@mergington.edu"; "daniel@mergington.edu"])) in
  (signup_for_activity db' "Chess Club" "emma@mergington.edu").2
    = (signup_for_activity full_house "Chess Club" "emma@mergington.edu").2 ∧
  participants_of (signup_for_activity db' "Chess Club" "emma@mergington.edu").1
    "Chess Club"
    = participants_of
        (signup_for_activity full_house "Chess Club" "emma@mergington.edu").1
        "Chess Club".
Proof.
  apply (signup_reads_only_participants full_house "Chess Club" "Chess Club"
           "emma@mergington.edu" "max_participants" (VInt 0)).
  - vm_compute; reflexivity.
  - discriminate.
Defined.

(** ** The test fixture *)

(** X9. The set-up of the fixture succeeds exactly on a database that is
    a dict, and then leaves the fixture's three activities whatever the
    dict held; on a list, the module's own database included, it raises
    [AttributeError] after having emptied the list. *)
Theorem reset_activities_needs_dict (db : collection) :
  ((reset_activities db).2 = None ↔ ∃ m, db = PyDict m) ∧
  ((∃ m, db = PyDict m) → reset_activities db = (initial_activities, None)) ∧
  ((∃ l, db = PyList l) → reset_activities db = (PyList [], Some AttributeError)) ∧
  reset_activities activities = (PyList [], Some AttributeError) ∧
  reset_activities (reset_activities db).1 = reset_activities db.
Proof.
  assert (∀ m, reset_activities (PyDict m) = (initial_activities, None)) as Hdict.
  { intros m. unfold reset_activities. simpl.
    by rewrite (right_id_L ∅ (∪)). }
  destruct db as [l|m].
  - split; [split; [done|by intros [m ?]]|]. split; [by intros [m ?]|].
    split; [done|]. split; done.
  - rewrite Hdict. split; [split; [eauto|done]|]. split; [done|].
    split; [by intros [l ?]|]. split; [done|]. apply Hdict.
Qed.

Lemma reset_activities_needs_dict_witness :
  let used := serve initial_activities
                [ Signup "Tennis Team" "student@mergington.edu";
                  Signup "Chess Club" "emma@mergington.edu" ] in
  participants_of used "Tennis Team" = Some ["student@mergington.edu"] ∧
  reset_activities used = (initial_activities, None) ∧
  (reset_activities activities).2 ≠ None.
Proof.
  intros used. split; [vm_compute; reflexivity|]. split.
  - apply (proj1 (proj2 (reset_activities_needs_dict used))).
    eexists. reflexivity.
  - intros Hnone.
    apply (proj1 (proj1 (reset_activities_needs_dict activities))) in Hnone.
    destruct Hnone as [m Hm]. discriminate Hm.
Defined.

Lemma signup_status_cases_witness :
  status (signup_for_activity initial_activities "Tennis Team"
            "student@mergington.edu").2 = 200 ∧
  contains "Nonexistent Club" initial_activities = false ∧
  ∃ ps, participants_of initial_activities "Programming Class" = Some ps ∧
        "emma@mergington.edu" ∈ ps.
Proof.
  split; [|split].
  - apply (proj1 (proj2 (signup_status_cases initial_activities "Tennis Team"
                           "student@mergington.edu"))).
    exists []. split; [vm_compute; reflexivity | apply not_elem_of_nil].
  - apply (proj1 (signup_status_cases initial_activities "Nonexistent Club"
                    "student@mergington.edu")).
    vm_compute; reflexivity.
  - destruct (proj1 (proj2 (proj2 (signup_status_cases initial_activities
                                     "Programming Class" "emma@mergington.edu"))))
      as (activity & Hget & [(ps & Hps & HE)|(s & Hs & _)]).
    + vm_compute; reflexivity.
    + exists ps. split; [|done]. apply participants_of_Some. eauto.
    + exfalso. vm_compute in Hget. injection Hget as <-. vm_compute in Hs. discriminate Hs.
Defined.

(** * Requests the module has no handler for *)

(** The registered handlers are reached through [dispatch]. *)
Lemma dispatch_registered (db : collection) (A E : string) :
  dispatch db GET ActivityList E
    = ((get_activities db).1, Handled (get_activities db).2) ∧
  dispatch db POST (ActivitySignup A) E
    = ((signup_for_activity db A E).1, Handled (signup_for_activity db A E).2) ∧
  dispatch db GET Root E = (db, Redirect "/static/index.html").
Proof.
  split; [done|]. split; [|done].
  unfold dispatch. simpl. by destruct (signup_for_activity db A E).
Qed.

(** C5. The module registers [POST] alone on the sign-up path, so a
    request to unregister never reaches a handler: whatever the database,
    the activity and the email, the answer is 405 "Method Not Allowed" and
    the database is left as it was.  At start-up, for "Basketball" and a
    student who is not among its participants, the answer is therefore not
    the 404 "not signed up" of the claim; and on the fixture database a
    participant of "Chess Club" is not unregistered and gets no 200. *)
Theorem unregister_not_allowed (db : collection) (A E : string) :
  dispatch db DELETE (ActivitySignup A) E
    = (db, Handled (HTTPException 405 "Method Not Allowed")) ∧
  (∃ r, activity_named activities "Basketball" r ∧
        r !! "participants" = Some (VList [])) ∧
  dispatch activities DELETE (ActivitySignup "Basketball") "student@mergington.edu"
    = (activities, Handled (HTTPException 405 "Method Not Allowed")) ∧
  reply_status
    (dispatch activities DELETE (ActivitySignup "Basketball")
       "student@mergington.edu").2 = 405 ∧
  str_contains "not signed up" "Method Not Allowed" = false ∧
  participants_of initial_activities "Chess Club"
    = Some ["michael@mergington.edu"; "daniel@mergington.edu"] ∧
  dispatch initial_activities DELETE (ActivitySignup "Chess Club")
    "michael@mergington.edu"
    = (initial_activities, Handled (HTTPException 405 "Method Not Allowed")).
Proof.
  split; [done|]. split.
  { exists (activity_row 1 "Basketball" "sports").
    split; [split; [apply list_elem_of_here | reflexivity] | reflexivity]. }
  split; [done|]. split; [done|]. split; [by vm_compute|].
  split; [by vm_compute | done].
Qed.
